(** * DropIt: the FileDropZone component

    A shallow embedding of [src/components/file-drop-zone.tsx]: the event
    handlers of the [FileDropZone] React component ([handleFileChange],
    [handleDragOver], [handleDragLeave], [handleDrop], [openFileDialog],
    [removeFile]) together with the JavaScript built-ins they call
    ([String.prototype.replace], [includes], [endsWith],
    [Array.prototype.slice], [splice], [filter], [some]).

    JavaScript strings are modelled as [string], arrays as [list], the
    numbers [maxFiles] and [index] as [Z] (integral values), a nullable
    [FileList] as [option (list File)].  The component's React state, the
    file-input ref and the calls made to the outside (the caller's
    [onFilesSelected], [preventDefault], [click]) are threaded through a
    small state-and-completion monad. *)

From Stdlib Require Import ZArith List Bool Ascii String Lia.
Import ListNotations.

Local Open Scope list_scope.

(* ================================================================== *)
(** ** JavaScript string built-ins *)
(* ================================================================== *)

Module JsString.

(** [s.startsWith(q)] at position 0, the matcher used by the searches
    below: [q] is read off the front of [s] character by character. *)
Fixpoint startsWith (s q : string) : bool :=
  match q, s with
  | EmptyString, _ => true
  | String _ _, EmptyString => false
  | String b q', String a s' => Ascii.eqb a b && startsWith s' q'
  end.

(** The characters of [s] from position [n] on. *)
Fixpoint dropChars (n : nat) (s : string) : string :=
  match n, s with
  | O, _ => s
  | S _, EmptyString => EmptyString
  | S n', String _ s' => dropChars n' s'
  end.

(** [s.includes(q)]: [q] occurs in [s] at some position. *)
Fixpoint includes (s q : string) : bool :=
  startsWith s q
  || match s with
     | EmptyString => false
     | String _ s' => includes s' q
     end.

(** [s.endsWith(q)] (ECMAScript 22.1.3.7 with [endPosition] undefined):
    [start = len - searchLength]; false when [start < 0]; otherwise the
    code units of [s] from [start] on are compared with [q]. *)
Definition endsWith (s q : string) : bool :=
  let len := Z.of_nat (String.length s) in
  let searchLength := Z.of_nat (String.length q) in
  let start := (len - searchLength)%Z in
  if (start <? 0)%Z then false
  else String.eqb (dropChars (Z.to_nat start) s) q.

(** [s.replace(pat, repl)] with a string pattern: only the first
    occurrence of [pat] (searched from the left) is replaced. *)
Fixpoint replace (s pat repl : string) : string :=
  if startsWith s pat
  then String.append repl (dropChars (String.length pat) s)
  else match s with
       | EmptyString => EmptyString
       | String a s' => String a (replace s' pat repl)
       end.

End JsString.

(* ================================================================== *)
(** ** JavaScript array built-ins *)
(* ================================================================== *)

Module JsArray.

Section Arrays.
Context {A : Type}.

(** The clamping of a relative index shared by [slice] and [splice]:
    a negative [k] counts from the end, and the result lies in
    [0 .. len]. *)
Definition relativeIndex (len k : Z) : Z :=
  if (k <? 0)%Z then Z.max (len + k) 0 else Z.min k len.

(** [l.slice(start, end)] (ECMAScript 23.1.3.28). *)
Definition slice (l : list A) (start end_ : Z) : list A :=
  let len := Z.of_nat (List.length l) in
  let k := relativeIndex len start in
  let final := relativeIndex len end_ in
  let count := Z.max (final - k) 0 in
  firstn (Z.to_nat count) (skipn (Z.to_nat k) l).

(** [l.splice(start, deleteCount)] with no inserted items
    (ECMAScript 23.1.3.31).  The array is updated in place; the model
    returns the array after the call, paired with the removed
    elements (the call's return value). *)
Definition splice (l : list A) (start deleteCount : Z)
  : list A * list A :=
  let len := Z.of_nat (List.length l) in
  let actualStart := relativeIndex len start in
  let actualDeleteCount :=
    Z.min (Z.max deleteCount 0) (len - actualStart) in
  (firstn (Z.to_nat actualStart) l
     ++ skipn (Z.to_nat (actualStart + actualDeleteCount)) l,
   firstn (Z.to_nat actualDeleteCount)
     (skipn (Z.to_nat actualStart) l)).

(** [l.some(p)] and [l.filter(p)]. *)
Definition some (p : A -> bool) (l : list A) : bool := existsb p l.
Definition filter (p : A -> bool) (l : list A) : list A :=
  List.filter p l.

(** [Array.from(fileList)]: a fresh array with the same elements. *)
Definition from (l : list A) : list A := l.

End Arrays.

End JsArray.

(* ================================================================== *)
(** ** The component: data *)
(* ================================================================== *)

(** The part of the DOM [File] interface the component reads. *)
Record File : Type := mkFile {
  name : string;
  type : string;
  size : Z
}.

(** [FileDropZoneProps].  [onFilesSelected] is the caller's function: a
    call to it is recorded in the world's call log.  [className] only
    reaches the markup. *)
Record FileDropZoneProps : Type := mkProps {
  acceptedFileTypes : list string;
  maxFiles : Z
}.

(** The defaults of the destructured props: [acceptedFileTypes = []],
    [maxFiles = 1]. *)
Definition defaultProps : FileDropZoneProps :=
  {| acceptedFileTypes := []; maxFiles := 1 |}.

(** What a handler does to the outside of the component. *)
Inductive Call : Type :=
| OnFilesSelected (fs : list File)   (* the prop callback *)
| PreventDefault                     (* e.preventDefault() *)
| InputClick.                        (* fileInputRef.current.click() *)

(** The component instance between two events: its two [useState] cells,
    the hidden input behind [fileInputRef] ([None] while the ref is null,
    otherwise the input's [value]) and the calls made so far, oldest
    first. *)
Record World : Type := mkWorld {
  files : list File;
  isDragging : bool;
  fileInputRef : option string;
  calls : list Call
}.

(** The two drag states as the specification names them; the component
    stores them in the boolean [isDragging]. *)
Inductive DragState : Type := Idle | Hovering.

Definition dragState (w : World) : DragState :=
  if isDragging w then Hovering else Idle.

(** The world right after mounting: [useState([])], [useState(false)],
    the input rendered with an empty value, nothing called yet. *)
Definition mounted : World :=
  {| files := []; isDragging := false;
     fileInputRef := Some EmptyString; calls := [] |}.

(* ================================================================== *)
(** ** The handler monad *)
(* ================================================================== *)

(** The error kinds the specification names. *)
Inductive ErrorKind : Type := InvalidArgument | OutOfRange.

(** How a JavaScript call completes: normally with a value, or abruptly
    with a thrown error. *)
Inductive Completion (A : Type) : Type :=
| Normal (a : A)
| Throw (e : ErrorKind).
Arguments Normal {A} a.
Arguments Throw {A} e.

Definition M (A : Type) : Type := World -> Completion (A * World).

Definition ret {A} (a : A) : M A := fun w => Normal (a, w).

Definition bind {A B} (m : M A) (k : A -> M B) : M B :=
  fun w =>
    match m w with
    | Normal (a, w') => k a w'
    | Throw e => Throw e
    end.

Declare Scope handler_scope.
Delimit Scope handler_scope with handler.
Notation "x <- m ;; k" := (bind m (fun x => k))
  (at level 61, m at next level, right associativity) : handler_scope.
Notation "m ;; k" := (bind m (fun _ => k))
  (at level 61, right associativity) : handler_scope.
Local Open Scope handler_scope.

(** Primitive actions. *)
Definition readFiles : M (list File) := fun w => Normal (files w, w).

Definition setFiles (fs : list File) : M unit :=
  fun w => Normal (tt, {| files := fs; isDragging := isDragging w;
                          fileInputRef := fileInputRef w;
                          calls := calls w |}).

Definition setIsDragging (b : bool) : M unit :=
  fun w => Normal (tt, {| files := files w; isDragging := b;
                          fileInputRef := fileInputRef w;
                          calls := calls w |}).

Definition call (c : Call) : M unit :=
  fun w => Normal (tt, {| files := files w; isDragging := isDragging w;
                          fileInputRef := fileInputRef w;
                          calls := calls w ++ [c] |}).

Definition onFilesSelected (fs : list File) : M unit :=
  call (OnFilesSelected fs).

(** [if (fileInputRef.current)]: the input's [value] is set to the empty
    string. *)
Definition resetFileInput : M unit :=
  fun w =>
    match fileInputRef w with
    | Some _ =>
        Normal (tt, {| files := files w; isDragging := isDragging w;
                       fileInputRef := Some EmptyString;
                       calls := calls w |})
    | None => Normal (tt, w)
    end.

(* ================================================================== *)
(** ** The component: handlers *)
(* ================================================================== *)

(** A number used as a condition: every integer but zero is truthy. *)
Definition truthy (n : Z) : bool := negb (n =? 0)%Z.

(** The arrow function given to [acceptedFileTypes.some]:
    [file.type.includes(stripped) || file.name.endsWith(stripped)],
    where [stripped] is [type.replace(star, empty)]: the string pattern
    is the one-character string made of an asterisk and the replacement
    is the empty string. *)
Definition matchesType (file : File) (type_ : string) : bool :=
  JsString.includes (type file) (JsString.replace type_ "*" EmptyString)
  || JsString.endsWith (name file) (JsString.replace type_ "*" EmptyString).

(** The arrow function given to [newFiles.filter]. *)
Definition isValidFile (accepted : list string) (file : File) : bool :=
  JsArray.some (matchesType file) accepted.

(** [const validFiles = acceptedFileTypes.length ? newFiles.filter(...)
    : newFiles]. *)
Definition validFiles (accepted : list string) (newFiles : list File)
  : list File :=
  if truthy (Z.of_nat (List.length accepted))
  then JsArray.filter (isValidFile accepted) newFiles
  else newFiles.

(** [const updatedFiles = maxFiles > 1
      ? [...files, ...validFiles].slice(0, maxFiles)
      : validFiles.slice(0, maxFiles)]. *)
Definition updatedFiles (maxFiles : Z) (files valid : list File)
  : list File :=
  if (maxFiles >? 1)%Z
  then JsArray.slice (files ++ valid) 0 maxFiles
  else JsArray.slice valid 0 maxFiles.

Section FileDropZone.

Variable props : FileDropZoneProps.

Definition handleFileChange (selectedFiles : option (list File))
  : M unit :=
  match selectedFiles with
  | None => ret tt                       (* if (!selectedFiles) return *)
  | Some fileList =>
      let newFiles := JsArray.from fileList in
      let valid := validFiles (acceptedFileTypes props) newFiles in
      current <- readFiles ;;
      let updated := updatedFiles (maxFiles props) current valid in
      setFiles updated ;;
      onFilesSelected updated ;;
      resetFileInput
  end.

Definition handleDragOver : M unit :=
  call PreventDefault ;;
  setIsDragging true.

Definition handleDragLeave : M unit :=
  setIsDragging false.

(** [dataTransferFiles] is [e.dataTransfer.files], a [FileList]. *)
Definition handleDrop (dataTransferFiles : list File) : M unit :=
  call PreventDefault ;;
  setIsDragging false ;;
  handleFileChange (Some dataTransferFiles).

Definition openFileDialog : M unit :=
  fun w =>
    match fileInputRef w with
    | Some _ => call InputClick w
    | None => Normal (tt, w)
    end.

Definition removeFile (index : Z) : M unit :=
  current <- readFiles ;;
  let newFiles := fst (JsArray.splice current index 1) in
  setFiles newFiles ;;
  onFilesSelected newFiles.

(** The events the rendered markup listens to, each with the data its
    handler reads: [onDragOver], [onDragLeave], [onDrop] on the zone,
    [onChange] on the hidden input ([e.target.files], nullable), the
    zone's and the button's [onClick], and the [onClick] of the remove
    button of the row rendered for position [index]. *)
Inductive Event : Type :=
| DragOver
| DragLeave
| Drop (dataTransferFiles : list File)
| Change (targetFiles : option (list File))
| Click
| ClickRemove (index : Z).

Definition dispatch (e : Event) : M unit :=
  match e with
  | DragOver => handleDragOver
  | DragLeave => handleDragLeave
  | Drop fs => handleDrop fs
  | Change fs => handleFileChange fs
  | Click => openFileDialog
  | ClickRemove i => removeFile i
  end.

End FileDropZone.

(** The calls to [onFilesSelected] in a call log, oldest first. *)
Fixpoint selectionsReported (cs : list Call) : list (list File) :=
  match cs with
  | [] => []
  | OnFilesSelected fs :: cs' => fs :: selectionsReported cs'
  | _ :: cs' => selectionsReported cs'
  end.


(** One run of a handler from [w] that completes normally in [w']. *)
Definition runsTo (m : M unit) (w w' : World) : Prop :=
  m w = Normal (tt, w').

(** The filter decision for one offered file, as [validFiles] takes it:
    every file passes when [acceptedFileTypes.length] is zero. *)
Definition accepts (accepted : list string) (file : File) : bool :=
  if truthy (Z.of_nat (List.length accepted))
  then isValidFile accepted file
  else true.

(* ================================================================== *)
(** ** Vocabulary of the statements *)
(* ================================================================== *)

(** [q] occurs somewhere in [s]; [q] ends [s]. *)
Definition isSubstring (q s : string) : Prop :=
  exists pre post, s = String.append pre (String.append q post).

Definition isSuffix (q s : string) : Prop :=
  exists pre, s = String.append pre q.

(** [s] has an asterisk in it. *)
Definition hasStar (s : string) : Prop :=
  exists a b, s = String.append a (String "*" b).

(** [q] is [p] without its leftmost asterisk ([q = p] when [p] has
    none). *)
Definition firstStarRemoved (p q : string) : Prop :=
  (~ hasStar p /\ q = p)
  \/ (exists a b, p = String.append a (String "*" b)
                  /\ ~ hasStar a /\ q = String.append a b).

(** The pattern as the component matches it. *)
Definition strippedPattern (p : string) : string :=
  JsString.replace p "*" EmptyString.

(** The specification's reading of the filter (section 4.1, rule 1): a
    pattern is matched with its trailing asterisks stripped, and only
    those. *)
Fixpoint stripTrailingStars_spec (p : string) : string :=
  match p with
  | EmptyString => EmptyString
  | String c p' =>
      match stripTrailingStars_spec p' with
      | EmptyString =>
          if Ascii.eqb c "*" then EmptyString else String c EmptyString
      | String d r => String c (String d r)
      end
  end.

Definition accepted_spec (filter : list string) (file : File) : Prop :=
  filter = []
  \/ exists p, In p filter
       /\ (isSubstring (stripTrailingStars_spec p) (type file)
           \/ isSuffix (stripTrailingStars_spec p) (name file)).

(** The specification's [removeAt] (section 4.2): the element at [index]
    is excluded, and an index outside [0 .. |current|) is an [OutOfRange]
    failure. *)
Definition removeAt_spec (current : list File) (index : Z)
  : Completion (list File) :=
  if ((0 <=? index)%Z && (index <? Z.of_nat (List.length current))%Z)%bool
  then Normal (firstn (Z.to_nat index) current
                 ++ skipn (S (Z.to_nat index)) current)
  else Throw OutOfRange.

(* ================================================================== *)
(** ** Sample data *)
(* ================================================================== *)

(** The props [FilePickerDemo] renders the component with. *)
Definition demoProps : FileDropZoneProps :=
  {| acceptedFileTypes := [".png"; ".jpg"; ".jpeg"; ".pdf"]%string;
     maxFiles := 3 |}.

(** The props [App] renders the component with. *)
Definition appProps : FileDropZoneProps :=
  {| acceptedFileTypes := [".png"; ".jpg"; ".jpeg"; ".gif"]%string;
     maxFiles := 3 |}.

Definition pngFile (n : string) : File :=
  {| name := n; type := "image/png"; size := 2048 |}.

Definition jpgFile (n : string) : File :=
  {| name := n; type := "image/jpeg"; size := 4096 |}.

Definition txtFile (n : string) : File :=
  {| name := n; type := "text/plain"; size := 12 |}.

Definition a_png : File := pngFile "a.png".
Definition b_png : File := pngFile "b.png".
Definition c_png : File := pngFile "c.png".
Definition d_png : File := pngFile "d.png".

(** A mounted component whose selection is [fs]. *)
Definition selecting (fs : list File) : World :=
  {| files := fs; isDragging := false;
     fileInputRef := Some EmptyString; calls := [] |}.

(* ================================================================== *)
(** ** Sequences of events *)
(* ================================================================== *)

(** The events of a list handled one after the other, each handler
    running against the state the previous one left (React renders the
    component again between two events, so every handler closes over the
    current [files]). *)
Fixpoint runEvents (props : FileDropZoneProps) (es : list Event)
  : M unit :=
  match es with
  | [] => ret tt
  | e :: es' => dispatch props e ;; runEvents props es'
  end.

(** The two-state drag automaton: what one event does to the drag
    flag. *)
Definition dragStep (dragging : bool) (e : Event) : bool :=
  match e with
  | DragOver => true
  | DragLeave => false
  | Drop _ => false
  | Change _ => dragging
  | Click => dragging
  | ClickRemove _ => dragging
  end.

Definition dragAfter (dragging : bool) (es : list Event) : bool :=
  fold_left dragStep es dragging.

(** Events whose handler reaches [onFilesSelected]; events whose handler
    calls [preventDefault]; events other than the two that only move the
    drag flag. *)
Definition reports (e : Event) : bool :=
  match e with
  | Drop _ => true
  | Change (Some _) => true
  | ClickRemove _ => true
  | _ => false
  end.

Definition preventsDefault (e : Event) : bool :=
  match e with
  | DragOver => true
  | Drop _ => true
  | _ => false
  end.

Definition notHover (e : Event) : bool :=
  match e with
  | DragOver => false
  | DragLeave => false
  | _ => true
  end.

(** The calls to [preventDefault] in a call log. *)
Fixpoint defaultsPrevented (cs : list Call) : nat :=
  match cs with
  | [] => 0
  | PreventDefault :: cs' => S (defaultsPrevented cs')
  | _ :: cs' => defaultsPrevented cs'
  end.

(* ================================================================== *)
(** ** The callers: [FilePickerDemo] and [App] *)
(* ================================================================== *)

Module FilePickerDemo.

(** [useState<File[]>([])] of the demo, and what it wrote to the
    console. *)
Record State : Type := mkState {
  files : list File;
  console : list (list File)
}.

Definition initial : State := {| files := []; console := [] |}.

(** [handleFilesSelected]: [setFiles(selectedFiles)], then
    [console.log] of the selection. *)
Definition handleFilesSelected (selectedFiles : list File) (st : State)
  : State :=
  {| files := selectedFiles;
     console := console st ++ [selectedFiles] |}.

(** The demo passes [handleFilesSelected] as [onFilesSelected]: every
    call the component makes runs it, in order. *)
Definition deliver (cs : list Call) (st : State) : State :=
  fold_left (fun st sel => handleFilesSelected sel st)
    (selectionsReported cs) st.

End FilePickerDemo.

Module App.

(** The two [useState] cells of [App], and the [FileReader]s it started
    with [readAsDataURL] whose [load] event has not fired yet (the file
    each one reads), oldest first. *)
Record State : Type := mkState {
  files : list File;
  imagePreview : option string;
  readers : list File
}.

Definition initial : State :=
  {| files := []; imagePreview := None; readers := [] |}.

(** [handleFilesSelected]: [setFiles(selectedFiles)]; when the selection
    is not empty and the type of its first file starts with [image/], a
    new reader is started on that file ([imagePreview] is left as it is
    until the reader loads); otherwise [setImagePreview(null)]. *)
Definition handleFilesSelected (selectedFiles : list File) (st : State)
  : State :=
  if (Z.of_nat (List.length selectedFiles) >? 0)%Z
     && match selectedFiles with
        | first :: _ => JsString.startsWith (type first) "image/"
        | [] => false
        end
  then {| files := selectedFiles;
          imagePreview := imagePreview st;
          readers := readers st
                       ++ match selectedFiles with
                          | first :: _ => [first]
                          | [] => []
                          end |}
  else {| files := selectedFiles;
          imagePreview := None;
          readers := readers st |}.

(** [reader.onload] of the pending reader number [k], with the data URL
    it read: [setImagePreview(result)].  Nothing happens when there is
    no such reader. *)
Definition onload (k : nat) (result : string) (st : State) : State :=
  match nth_error (readers st) k with
  | Some _ =>
      {| files := files st;
         imagePreview := Some result;
         readers := firstn k (readers st) ++ skipn (S k) (readers st) |}
  | None => st
  end.

(** What happens to [App]: the component reports a selection, or a
    pending reader loads. *)
Inductive Event : Type :=
| FilesSelected (selectedFiles : list File)
| ReaderLoaded (k : nat) (result : string).

Definition step (st : State) (e : Event) : State :=
  match e with
  | FilesSelected sel => handleFilesSelected sel st
  | ReaderLoaded k result => onload k result st
  end.

Definition run (es : list Event) (st : State) : State :=
  fold_left step es st.

(** The selections reported to [App] among its events, in order. *)
Fixpoint selections (es : list Event) : list (list File) :=
  match es with
  | [] => []
  | FilesSelected sel :: es' => sel :: selections es'
  | ReaderLoaded _ _ :: es' => selections es'
  end.

End App.

(* ================================================================== *)
(** ** Strings: the built-ins meet their descriptions *)
(* ================================================================== *)

Section StringFacts.

Local Open Scope string_scope.

Lemma startsWith_iff (q s : string) :
  JsString.startsWith s q = true <-> exists post, s = q ++ post.
Proof.
  revert s; induction q as [|b q IH]; intros s; simpl.
  - split; [intros _; now exists s | intros _; now destruct s].
  - destruct s as [|a s]; simpl.
    + split; [discriminate | intros [post H]; discriminate].
    + rewrite andb_true_iff, Ascii.eqb_eq, IH. split.
      * intros [-> [post ->]]. now exists post.
      * intros [post H]. injection H as -> ->. split; eauto.
Qed.

Lemma append_assoc (a b c : string) : (a ++ b) ++ c = a ++ (b ++ c).
Proof. induction a as [|x a IH]; simpl; [reflexivity | now rewrite IH]. Qed.

Lemma append_empty_r (a : string) : a ++ EmptyString = a.
Proof. induction a as [|x a IH]; simpl; [reflexivity | now rewrite IH]. Qed.

Lemma length_append (a b : string) :
  String.length (a ++ b) = String.length a + String.length b.
Proof. induction a as [|x a IH]; simpl; [reflexivity | now rewrite IH]. Qed.

Lemma includes_cons (a : ascii) (s q : string) :
  JsString.includes (String a s) q
  = JsString.startsWith (String a s) q || JsString.includes s q.
Proof. reflexivity. Qed.

Lemma includes_empty (q : string) :
  JsString.includes EmptyString q = JsString.startsWith EmptyString q.
Proof. change (JsString.includes EmptyString q)
         with (JsString.startsWith EmptyString q || false).
       apply orb_false_r.
Qed.

Lemma includes_iff (q s : string) :
  JsString.includes s q = true <-> isSubstring q s.
Proof.
  unfold isSubstring. split.
  - induction s as [|a s IH].
    + rewrite includes_empty. intros H.
      apply startsWith_iff in H as [post H]. now exists EmptyString, post.
    + rewrite includes_cons, orb_true_iff. intros [H | H].
      * apply startsWith_iff in H as [post H]. now exists EmptyString, post.
      * destruct (IH H) as (pre & post & ->).
        now exists (String a pre), post.
  - intros (pre & post & ->). induction pre as [|a pre IH].
    + assert (H : JsString.startsWith (q ++ post) q = true)
        by (apply startsWith_iff; eauto).
      change (EmptyString ++ (q ++ post)) with (q ++ post).
      destruct (q ++ post) as [|c r].
      * now rewrite includes_empty.
      * now rewrite includes_cons, H.
    + change (String a pre ++ (q ++ post))
        with (String a (pre ++ (q ++ post))).
      rewrite includes_cons, IH. apply orb_true_r.
Qed.

Lemma dropChars_append (pre q : string) :
  JsString.dropChars (String.length pre) (pre ++ q) = q.
Proof. induction pre as [|a pre IH]; simpl; [now destruct q | exact IH]. Qed.

Lemma dropChars_split (n : nat) (s : string) :
  n <= String.length s ->
  exists pre, s = pre ++ JsString.dropChars n s /\ String.length pre = n.
Proof.
  revert s; induction n as [|n IH]; intros s Hn.
  - exists EmptyString. now destruct s.
  - destruct s as [|a s]; simpl in *; [lia|].
    destruct (IH s) as (pre & H & Hlen); [lia|].
    exists (String a pre). simpl. now rewrite <- H, Hlen.
Qed.

Lemma endsWith_iff (q s : string) :
  JsString.endsWith s q = true <-> isSuffix q s.
Proof.
  unfold JsString.endsWith, isSuffix. split.
  - destruct (Z.ltb_spec (Z.of_nat (String.length s)
                          - Z.of_nat (String.length q)) 0) as [Hlt | Hge];
      [discriminate|].
    intros H. apply String.eqb_eq in H.
    destruct (dropChars_split
                (Z.to_nat (Z.of_nat (String.length s)
                           - Z.of_nat (String.length q))) s)
      as (pre & Hs & _); [lia|].
    exists pre. now rewrite H in Hs.
  - intros [pre ->]. rewrite length_append.
    destruct (Z.ltb_spec (Z.of_nat (String.length pre + String.length q)
                          - Z.of_nat (String.length q)) 0) as [Hlt | Hge];
      [lia|].
    replace (Z.to_nat _) with (String.length pre) by lia.
    rewrite dropChars_append. apply String.eqb_refl.
Qed.

(** [replace] with a one-asterisk pattern and an empty replacement,
    unfolded one character. *)
Lemma strippedPattern_cons (a : ascii) (s : string) :
  strippedPattern (String a s)
  = if Ascii.eqb a "*" then s else String a (strippedPattern s).
Proof.
  unfold strippedPattern; simpl.
  destruct (Ascii.eqb a "*"); simpl; [now destruct s | reflexivity].
Qed.

Lemma hasStar_cons (a : ascii) (s : string) :
  hasStar (String a s) <-> a = "*"%char \/ hasStar s.
Proof.
  unfold hasStar. split.
  - intros (x & y & H). destruct x as [|c x]; simpl in H.
    + injection H as -> _. now left.
    + injection H as _ ->. right; eauto.
  - intros [-> | (x & y & ->)].
    + now exists EmptyString, s.
    + now exists (String a x), y.
Qed.

Lemma not_hasStar_empty : ~ hasStar EmptyString.
Proof. intros (x & y & H). destruct x; discriminate. Qed.

Lemma strippedPattern_firstStarRemoved (p : string) :
  firstStarRemoved p (strippedPattern p).
Proof.
  induction p as [|a p IH].
  - left. split; [apply not_hasStar_empty | reflexivity].
  - rewrite strippedPattern_cons.
    destruct (Ascii.eqb_spec a "*") as [-> | Hne].
    + right. exists EmptyString, p. repeat split. apply not_hasStar_empty.
    + destruct IH as [[Hno ->] | (x & y & -> & Hno & ->)].
      * left. split; [|reflexivity].
        rewrite hasStar_cons. tauto.
      * right. exists (String a x), y. repeat split.
        rewrite hasStar_cons. tauto.
Qed.

End StringFacts.

(* ================================================================== *)
(** ** Arrays: [slice] and [splice] as the handlers call them *)
(* ================================================================== *)

Section ArrayFacts.

Context {A : Type}.
Implicit Types l : list A.

(** [l.slice(0, m)] with [m >= 0] keeps the first [m] elements. *)
Lemma slice_from_0 l (m : Z) :
  (0 <= m)%Z -> JsArray.slice l 0 m = firstn (Z.to_nat m) l.
Proof.
  intros Hm. unfold JsArray.slice, JsArray.relativeIndex.
  destruct (Z.ltb_spec m 0) as [Hlt | _]; [lia|].
  change (0 <? 0)%Z with false. cbv iota.
  replace (Z.to_nat (Z.min 0 (Z.of_nat (List.length l)))) with 0%nat by lia.
  rewrite skipn_O.
  destruct (Z.le_gt_cases m (Z.of_nat (List.length l))) as [Hle | Hgt].
  - f_equal. lia.
  - rewrite (firstn_all2 (n := Z.to_nat m)) by lia.
    apply firstn_all2. lia.
Qed.

Lemma slice_from_0_length l (m : Z) :
  (0 <= m)%Z -> (Z.of_nat (List.length (JsArray.slice l 0 m)) <= m)%Z.
Proof.
  intros Hm. rewrite slice_from_0 by assumption.
  pose proof (firstn_le_length (Z.to_nat m) l). rewrite length_firstn. lia.
Qed.

(** [l.splice(i, 1)] at a position of [l] takes out that element. *)
Lemma splice_inside l (i : Z) :
  (0 <= i < Z.of_nat (List.length l))%Z ->
  fst (JsArray.splice l i 1)
  = firstn (Z.to_nat i) l ++ skipn (S (Z.to_nat i)) l.
Proof.
  intros Hi. unfold JsArray.splice, JsArray.relativeIndex; simpl fst.
  destruct (Z.ltb_spec i 0) as [Hlt | _]; [lia|].
  f_equal; f_equal; lia.
Qed.

(** [l.splice(i, 1)] at or past the end takes out nothing. *)
Lemma splice_beyond l (i : Z) :
  (Z.of_nat (List.length l) <= i)%Z -> fst (JsArray.splice l i 1) = l.
Proof.
  intros Hi. unfold JsArray.splice, JsArray.relativeIndex; simpl fst.
  destruct (Z.ltb_spec i 0) as [Hlt | _]; [lia|].
  replace (Z.to_nat (Z.min i (Z.of_nat (List.length l)))) with (List.length l) by lia.
  replace (Z.to_nat _) with (List.length l) by lia.
  rewrite firstn_all, skipn_all. apply app_nil_r.
Qed.

(** [l.splice(i, 1)] with [i < 0] counts from the end, stopping at the
    front. *)
Lemma splice_negative l (i : Z) :
  (i < 0)%Z ->
  let k := Z.to_nat (Z.max (Z.of_nat (List.length l) + i) 0) in
  fst (JsArray.splice l i 1) = firstn k l ++ skipn (S k) l.
Proof.
  intros Hi k. unfold JsArray.splice, JsArray.relativeIndex; simpl fst.
  destruct (Z.ltb_spec i 0) as [_ | Hge]; [|lia].
  fold k. f_equal.
  destruct l as [|x l'].
  - now rewrite !skipn_nil.
  - f_equal. subst k. cbn [List.length] in *. lia.
Qed.

Lemma length_remove_nth l (i : nat) :
  (i < List.length l)%nat ->
  S (List.length (firstn i l ++ skipn (S i) l)) = List.length l.
Proof.
  intros Hi. rewrite length_app, length_firstn, length_skipn. lia.
Qed.

Lemma nth_error_remove_before l (i j : nat) :
  (j < i)%nat -> (i < List.length l)%nat ->
  nth_error (firstn i l ++ skipn (S i) l) j = nth_error l j.
Proof.
  intros Hj Hi. rewrite nth_error_app1 by (rewrite length_firstn; lia).
  rewrite nth_error_firstn.
  destruct (Nat.ltb_spec j i); [reflexivity | lia].
Qed.

Lemma nth_error_remove_after l (i j : nat) :
  (i <= j)%nat -> (i < List.length l)%nat ->
  nth_error (firstn i l ++ skipn (S i) l) j = nth_error l (S j).
Proof.
  intros Hj Hi. rewrite nth_error_app2 by (rewrite length_firstn; lia).
  rewrite length_firstn, nth_error_skipn. f_equal. lia.
Qed.

Lemma filter_all l : List.filter (fun _ => true) l = l.
Proof. induction l as [|x l IH]; simpl; [reflexivity | now rewrite IH]. Qed.

End ArrayFacts.

(* ================================================================== *)
(** ** The handlers, run *)
(* ================================================================== *)

Section HandlerFacts.

Variable props : FileDropZoneProps.

Lemma validFiles_filter (accepted : list string) (offered : list File) :
  validFiles accepted offered = List.filter (accepts accepted) offered.
Proof.
  unfold validFiles, accepts, JsArray.filter.
  destruct (truthy (Z.of_nat (List.length accepted))).
  - reflexivity.
  - symmetry. apply filter_all.
Qed.

(** The world a non-null batch leaves behind. *)
Lemma handleFileChange_Some (offered : list File) (w : World) :
  let updated := updatedFiles (maxFiles props) (files w)
                   (validFiles (acceptedFileTypes props) offered) in
  handleFileChange props (Some offered) w
  = Normal (tt, {| files := updated;
                   isDragging := isDragging w;
                   fileInputRef :=
                     match fileInputRef w with
                     | Some _ => Some EmptyString
                     | None => None
                     end;
                   calls := calls w ++ [OnFilesSelected updated] |}).
Proof.
  unfold handleFileChange, bind, readFiles, setFiles, onFilesSelected,
    call, resetFileInput; simpl.
  destruct (fileInputRef w); reflexivity.
Qed.

(** The world a removal leaves behind. *)
Lemma removeFile_run (index : Z) (w : World) :
  let newFiles := fst (JsArray.splice (files w) index 1) in
  removeFile index w
  = Normal (tt, {| files := newFiles;
                   isDragging := isDragging w;
                   fileInputRef := fileInputRef w;
                   calls := calls w ++ [OnFilesSelected newFiles] |}).
Proof. reflexivity. Qed.

Lemma handleDrop_run (fs : list File) (w : World) :
  handleDrop props fs w
  = handleFileChange props (Some fs)
      {| files := files w; isDragging := false;
         fileInputRef := fileInputRef w;
         calls := calls w ++ [PreventDefault] |}.
Proof. reflexivity. Qed.

End HandlerFacts.

(* ================================================================== *)
(** ** The built-ins and the handlers on sample inputs *)
(* ================================================================== *)

Example replace_trailing_star :
  strippedPattern "image/*" = "image/"%string.
Proof. reflexivity. Qed.

Example replace_leading_star :
  strippedPattern "*.png" = ".png"%string.
Proof. reflexivity. Qed.

Example replace_only_first_star :
  strippedPattern "a*b*" = "ab*"%string.
Proof. reflexivity. Qed.

Example includes_is_case_sensitive :
  JsString.includes "image/png" "image/" = true
  /\ JsString.includes "image/png" "IMAGE/" = false.
Proof. split; reflexivity. Qed.

Example endsWith_extension :
  JsString.endsWith "a.png" ".png" = true
  /\ JsString.endsWith "a.PNG" ".png" = false
  /\ JsString.endsWith "png" ".png" = false.
Proof. repeat split. Qed.

Example slice_negative_end :
  JsArray.slice [a_png; b_png; c_png] 0 (-1) = [a_png; b_png].
Proof. reflexivity. Qed.

Example splice_from_the_end :
  fst (JsArray.splice [a_png; b_png; c_png] (-1) 1) = [a_png; b_png].
Proof. reflexivity. Qed.

(** Scenarios 1 to 5 of the specification's section 8. *)
Example scenario_1 :
  updatedFiles 1 [] (validFiles [] [txtFile "a.txt"]) = [txtFile "a.txt"].
Proof. reflexivity. Qed.

Example scenario_2 :
  updatedFiles 1 [txtFile "a.txt"] (validFiles [] [txtFile "b.txt"])
  = [txtFile "b.txt"].
Proof. reflexivity. Qed.

Example scenario_3 :
  updatedFiles 3 [pngFile "x.png"]
    (validFiles [".png"%string] [jpgFile "y.jpg"; pngFile "z.png"])
  = [pngFile "x.png"; pngFile "z.png"].
Proof. reflexivity. Qed.

Example scenario_4 :
  updatedFiles 2 [a_png; b_png] (validFiles [] [c_png; d_png])
  = [a_png; b_png].
Proof. reflexivity. Qed.

Example scenario_5 :
  fst (JsArray.splice [a_png; b_png; c_png] 1 1) = [a_png; c_png].
Proof. reflexivity. Qed.

(* ================================================================== *)
(** ** Reconciliation: [handleFileChange] *)
(* ================================================================== *)

(** C1. Whatever the current selection, the offered batch and the accept
    filter, when [maxFiles >= 1] a run of [handleFileChange] on a batch
    completes and stores a selection of at most [maxFiles] files. *)
Theorem handleFileChange_at_most_maxFiles
  (props : FileDropZoneProps) (w : World) (offered : list File) :
  (1 <= maxFiles props)%Z ->
  exists w',
    runsTo (handleFileChange props (Some offered)) w w'
    /\ (Z.of_nat (List.length (files w')) <= maxFiles props)%Z.
Proof.
  intros Hmax. eexists. split.
  - unfold runsTo. apply handleFileChange_Some.
  - cbn [files]. unfold updatedFiles.
    destruct (maxFiles props >? 1)%Z; apply slice_from_0_length; lia.
Qed.

Lemma handleFileChange_at_most_maxFiles_witness :
  (1 <= maxFiles demoProps)%Z
  /\ exists w',
       runsTo (handleFileChange demoProps (Some [c_png; d_png]))
         (selecting [a_png; b_png]) w'
       /\ (Z.of_nat (List.length (files w')) <= maxFiles demoProps)%Z.
Proof.
  split.
  - simpl. lia.
  - apply (handleFileChange_at_most_maxFiles demoProps
             (selecting [a_png; b_png]) [c_png; d_png]).
    simpl. lia.
Defined.

(** C2. With [maxFiles = m > 1] the stored selection is the first [m]
    elements of the current selection followed by the accepted files of
    the batch (the batch filtered, in its order): the files already
    selected come first and are kept, and what does not fit any more at
    the tail is dropped. *)
Theorem handleFileChange_multi_keeps_first
  (props : FileDropZoneProps) (w : World) (offered : list File) :
  (1 < maxFiles props)%Z ->
  let m := Z.to_nat (maxFiles props) in
  let accepted := List.filter (accepts (acceptedFileTypes props)) offered in
  exists w',
    runsTo (handleFileChange props (Some offered)) w w'
    /\ files w' = firstn m (files w ++ accepted)
    /\ files w' = firstn m (files w)
                    ++ firstn (m - List.length (files w)) accepted.
Proof.
  intros Hmax m accepted. eexists. split; [|split].
  - unfold runsTo. apply handleFileChange_Some.
  - cbn [files]. unfold updatedFiles.
    destruct (Z.gtb_spec (maxFiles props) 1) as [_ | Hle]; [|lia].
    rewrite validFiles_filter. apply slice_from_0. lia.
  - cbn [files]. unfold updatedFiles.
    destruct (Z.gtb_spec (maxFiles props) 1) as [_ | Hle]; [|lia].
    rewrite validFiles_filter, slice_from_0 by lia.
    apply firstn_app.
Qed.

Lemma handleFileChange_multi_keeps_first_witness :
  (1 < maxFiles demoProps)%Z
  /\ exists w',
       runsTo (handleFileChange demoProps (Some [c_png; d_png]))
         (selecting [a_png; b_png]) w'
       /\ files w' = [a_png; b_png; c_png]
       /\ files w' = [a_png; b_png] ++ [c_png].
Proof.
  split.
  - simpl. lia.
  - apply (handleFileChange_multi_keeps_first demoProps
             (selecting [a_png; b_png]) [c_png; d_png]).
    simpl. lia.
Defined.

(** C3, as the component has it. The accepted files are the offered ones
    that pass [accepts], in their order; a file passes iff the filter is
    empty or some pattern of the filter, with its leftmost asterisk
    removed wherever it stands (and no other asterisk), occurs in the
    file's [type] or ends the file's [name]. Characters are compared as
    they are. *)
Theorem validFiles_first_star_removed
  (accepted : list string) (offered : list File) :
  validFiles accepted offered = List.filter (accepts accepted) offered
  /\ (forall file,
        accepts accepted file = true
        <-> accepted = []
            \/ exists p, In p accepted
                 /\ (isSubstring (strippedPattern p) (type file)
                     \/ isSuffix (strippedPattern p) (name file)))
  /\ (forall p, firstStarRemoved p (strippedPattern p)).
Proof.
  split; [apply validFiles_filter | split].
  - intros file. unfold accepts.
    destruct accepted as [|p0 ps] eqn:E.
    + simpl. split; [now left | reflexivity].
    + rewrite <- E. replace (truthy (Z.of_nat (List.length accepted)))
        with true by (subst accepted; reflexivity).
      unfold isValidFile, JsArray.some. rewrite existsb_exists.
      split.
      * intros (p & Hin & Hm). right. exists p. split; [assumption|].
        unfold matchesType in Hm. apply orb_true_iff in Hm.
        rewrite includes_iff, endsWith_iff in Hm. exact Hm.
      * intros [Hnil | (p & Hin & Hm)]; [subst; discriminate|].
        exists p. split; [assumption|].
        unfold matchesType. apply orb_true_iff.
        rewrite includes_iff, endsWith_iff. exact Hm.
  - apply strippedPattern_firstStarRemoved.
Qed.

(** C3, as stated, fails: with the filter made of the one pattern
    [*.png], which has no trailing asterisk to strip, the component
    accepts [a.png] (it matches [.png] against the name), while no
    pattern of the filter occurs in the file's type or ends its name. *)
Lemma accepts_leading_star_not_spec :
  accepts ["*.png"%string] a_png = true
  /\ ~ accepted_spec ["*.png"%string] a_png.
Proof.
  split; [reflexivity|].
  intros [H | (p & [<- | []] & [H | H])].
  - discriminate.
  - apply includes_iff in H. discriminate.
  - apply endsWith_iff in H. discriminate.
Qed.

(** C4. With [maxFiles = 1] the stored selection is the first accepted
    file of the batch, if any: two runs from any two worlds on the same
    batch and filter store, and report, the same selection. *)
Theorem handleFileChange_single_replaces
  (accepted : list string) (offered : list File) (w1 w2 : World) :
  let props := {| acceptedFileTypes := accepted; maxFiles := 1 |} in
  exists w1' w2',
    runsTo (handleFileChange props (Some offered)) w1 w1'
    /\ runsTo (handleFileChange props (Some offered)) w2 w2'
    /\ files w1' = files w2'
    /\ files w1' = firstn 1 (List.filter (accepts accepted) offered).
Proof.
  intros props. do 2 eexists. split; [|split; [|split]].
  - unfold runsTo. apply handleFileChange_Some.
  - unfold runsTo. apply handleFileChange_Some.
  - reflexivity.
  - cbn [files props maxFiles acceptedFileTypes]. unfold updatedFiles.
    change (1 >? 1)%Z with false. cbv iota.
    rewrite validFiles_filter. apply (slice_from_0 _ 1). lia.
Qed.

(* ================================================================== *)
(** ** Removal: [removeFile] *)
(* ================================================================== *)

(** C5, as the component has it. [removeFile] never fails: for an index
    outside [0 .. |files|) the run completes normally; an index at or past
    the end leaves the selection as it was, and a negative index counts
    from the end, removing the element at position
    [max (|files| + index) 0] when there is one. *)
Theorem removeFile_outside_completes (w : World) (index : Z) :
  ~ (0 <= index < Z.of_nat (List.length (files w)))%Z ->
  exists w',
    runsTo (removeFile index) w w'
    /\ (forall e, removeFile index w <> Throw e)
    /\ ((Z.of_nat (List.length (files w)) <= index)%Z ->
        files w' = files w)
    /\ ((index < 0)%Z ->
        let k := Z.to_nat (Z.max (Z.of_nat (List.length (files w)) + index) 0)
        in files w' = firstn k (files w) ++ skipn (S k) (files w)).
Proof.
  intros _. eexists. split; [|split; [|split]].
  - unfold runsTo. apply removeFile_run.
  - intros e. rewrite removeFile_run. discriminate.
  - intros Hge. cbn [files]. now apply splice_beyond.
  - intros Hneg. cbn [files]. now apply splice_negative.
Qed.

Lemma removeFile_outside_completes_witness :
  ~ (0 <= 5 < Z.of_nat (List.length (files (selecting [a_png]))))%Z
  /\ exists w',
       runsTo (removeFile 5) (selecting [a_png]) w'
       /\ (forall e, removeFile 5 (selecting [a_png]) <> Throw e)
       /\ ((Z.of_nat (List.length (files (selecting [a_png]))) <= 5)%Z ->
           files w' = files (selecting [a_png]))
       /\ ((5 < 0)%Z ->
           let k := Z.to_nat
                      (Z.max (Z.of_nat (List.length
                                          (files (selecting [a_png]))) + 5) 0)
           in files w' = firstn k (files (selecting [a_png]))
                           ++ skipn (S k) (files (selecting [a_png]))).
Proof.
  split.
  - simpl. lia.
  - apply (removeFile_outside_completes (selecting [a_png]) 5).
    simpl. lia.
Defined.

(** C5, as stated, fails: on the one-element selection [[a_png]] with
    index 5, where the specification's [removeAt] is an [OutOfRange]
    failure, [removeFile] completes normally and stores [[a_png]]. *)
Lemma removeFile_index_5_no_failure :
  removeAt_spec [a_png] 5 = Throw OutOfRange
  /\ removeFile 5 (selecting [a_png]) <> Throw OutOfRange
  /\ exists w',
       runsTo (removeFile 5) (selecting [a_png]) w'
       /\ files w' = [a_png].
Proof.
  split; [reflexivity | split].
  - rewrite removeFile_run. discriminate.
  - eexists. split; [unfold runsTo; apply removeFile_run | reflexivity].
Qed.

(** C6. For an index inside [0 .. |files|), [removeFile] completes and
    stores a selection one element shorter: the elements before the index
    followed by the elements after it, each of them at its old position
    or one position lower. *)
Theorem removeFile_inside (w : World) (index : Z) :
  (0 <= index < Z.of_nat (List.length (files w)))%Z ->
  let i := Z.to_nat index in
  exists w',
    runsTo (removeFile index) w w'
    /\ S (List.length (files w')) = List.length (files w)
    /\ files w' = firstn i (files w) ++ skipn (S i) (files w)
    /\ (forall j, (j < i)%nat ->
          nth_error (files w') j = nth_error (files w) j)
    /\ (forall j, (i <= j)%nat ->
          nth_error (files w') j = nth_error (files w) (S j)).
Proof.
  intros Hi i.
  assert (Hlt : (i < List.length (files w))%nat) by (subst i; lia).
  eexists. split; [unfold runsTo; apply removeFile_run|].
  cbn [files]. rewrite splice_inside by assumption. fold i.
  split; [|split; [|split]].
  - now apply length_remove_nth.
  - reflexivity.
  - intros j Hj. now apply nth_error_remove_before.
  - intros j Hj. now apply nth_error_remove_after.
Qed.

Lemma removeFile_inside_witness :
  (0 <= 1 < Z.of_nat (List.length (files (selecting [a_png; b_png; c_png]))))%Z
  /\ exists w',
       runsTo (removeFile 1) (selecting [a_png; b_png; c_png]) w'
       /\ S (List.length (files w')) = 3%nat
       /\ files w' = [a_png; c_png]
       /\ (forall j, (j < 1)%nat ->
             nth_error (files w') j = nth_error [a_png; b_png; c_png] j)
       /\ (forall j, (1 <= j)%nat ->
             nth_error (files w') j
             = nth_error [a_png; b_png; c_png] (S j)).
Proof.
  split.
  - simpl. lia.
  - apply (removeFile_inside (selecting [a_png; b_png; c_png]) 1).
    simpl. lia.
Defined.

(** C10. For an index at or past the end of the selection, [removeFile]
    raises nothing, stores a selection with the same contents and still
    calls [onFilesSelected], once, with that selection. *)
Theorem removeFile_past_end (w : World) (index : Z) :
  (Z.of_nat (List.length (files w)) <= index)%Z ->
  exists w',
    runsTo (removeFile index) w w'
    /\ files w' = files w
    /\ calls w' = calls w ++ [OnFilesSelected (files w)].
Proof.
  intros Hge. eexists. split; [unfold runsTo; apply removeFile_run|].
  cbn [files calls]. rewrite splice_beyond by assumption. now split.
Qed.

Lemma removeFile_past_end_witness :
  (Z.of_nat (List.length (files (selecting [a_png; b_png]))) <= 2)%Z
  /\ exists w',
       runsTo (removeFile 2) (selecting [a_png; b_png]) w'
       /\ files w' = [a_png; b_png]
       /\ calls w' = [OnFilesSelected [a_png; b_png]].
Proof.
  split.
  - simpl. lia.
  - apply (removeFile_past_end (selecting [a_png; b_png]) 2).
    simpl. lia.
Defined.

(* ================================================================== *)
(** ** The callback and the drag state *)
(* ================================================================== *)

(** C7. A run of [handleFileChange] on a batch, and a run of
    [removeFile], completes within the handler having called
    [onFilesSelected] exactly once more, with the whole selection it
    stored. *)
Theorem onFilesSelected_gets_stored_selection
  (props : FileDropZoneProps) (w : World) :
  (forall offered, exists w',
      runsTo (handleFileChange props (Some offered)) w w'
      /\ calls w' = calls w ++ [OnFilesSelected (files w')]
      /\ selectionsReported (calls w')
         = selectionsReported (calls w) ++ [files w'])
  /\ (forall index, exists w',
        runsTo (removeFile index) w w'
        /\ calls w' = calls w ++ [OnFilesSelected (files w')]
        /\ selectionsReported (calls w')
           = selectionsReported (calls w) ++ [files w']).
Proof.
  assert (Hrep : forall cs fs,
             selectionsReported (cs ++ [OnFilesSelected fs])
             = selectionsReported cs ++ [fs]).
  { intros cs fs. induction cs as [|c cs IH]; [reflexivity|].
    destruct c; simpl; now rewrite IH. }
  split.
  - intros offered. eexists. split; [unfold runsTo; apply handleFileChange_Some|].
    cbn [files calls]. split; [reflexivity | apply Hrep].
  - intros index. eexists. split; [unfold runsTo; apply removeFile_run|].
    cbn [files calls]. split; [reflexivity | apply Hrep].
Qed.

(** C8. The component mounts in [Idle]. From any state a drag-over event
    leads to [Hovering], a drag-leave event to [Idle] (so from [Hovering]
    to [Idle]), and a drop to [Idle], the dropped files going through
    [handleFileChange] against the current selection; drag-over and
    drag-leave leave the selection alone, and the other events
    (the input's change, a click, a removal) leave the drag state as it
    was. *)
Theorem dragState_transitions (props : FileDropZoneProps) :
  dragState mounted = Idle
  /\ (forall w, exists w',
        runsTo (dispatch props DragOver) w w'
        /\ dragState w' = Hovering /\ files w' = files w)
  /\ (forall w, exists w',
        runsTo (dispatch props DragLeave) w w'
        /\ dragState w' = Idle /\ files w' = files w)
  /\ (forall w fs, exists w' w'',
        runsTo (dispatch props (Drop fs)) w w'
        /\ dragState w' = Idle
        /\ runsTo (handleFileChange props (Some fs)) w w''
        /\ files w' = files w''
        /\ selectionsReported (calls w') = selectionsReported (calls w''))
  /\ (forall w fs, exists w',
        runsTo (dispatch props (Change fs)) w w'
        /\ dragState w' = dragState w)
  /\ (forall w, exists w',
        runsTo (dispatch props Click) w w'
        /\ dragState w' = dragState w)
  /\ (forall w index, exists w',
        runsTo (dispatch props (ClickRemove index)) w w'
        /\ dragState w' = dragState w).
Proof.
  assert (Hrep : forall cs c fs,
             selectionsReported (cs ++ [c] ++ [OnFilesSelected fs])
             = selectionsReported (cs ++ [OnFilesSelected fs])
               \/ exists gs, c = OnFilesSelected gs).
  { intros cs c fs. destruct c; [right; eauto | left | left];
      induction cs as [|d cs IH]; try reflexivity;
      destruct d; simpl in *; now rewrite IH. }
  repeat split.
  - intros w. eexists. repeat split.
  - intros w. eexists. repeat split.
  - intros w fs. do 2 eexists. split; [|split; [|split; [|split]]].
    + unfold runsTo. cbn [dispatch]. rewrite handleDrop_run.
      apply handleFileChange_Some.
    + reflexivity.
    + unfold runsTo. apply handleFileChange_Some.
    + reflexivity.
    + cbn [files calls isDragging fileInputRef]. rewrite <- app_assoc.
      destruct (Hrep (calls w) PreventDefault
                  (updatedFiles (maxFiles props) (files w)
                     (validFiles (acceptedFileTypes props) fs)))
        as [H | [gs H]]; [exact H | discriminate].
  - intros w [fs|].
    + eexists. split; [unfold runsTo; apply handleFileChange_Some|].
      reflexivity.
    + exists w. split; reflexivity.
  - intros w. unfold runsTo, dispatch, openFileDialog.
    destruct (fileInputRef w); eexists; split; reflexivity.
  - intros w index. eexists. split; [unfold runsTo; apply removeFile_run|].
    reflexivity.
Qed.

(** C9. When the offered batch is null, [handleFileChange] returns at
    once: the world is the same afterwards, so the selection is unchanged
    and [onFilesSelected] has not been called. *)
Theorem handleFileChange_null (props : FileDropZoneProps) (w : World) :
  handleFileChange props None w = Normal (tt, w)
  /\ exists w',
       runsTo (handleFileChange props None) w w'
       /\ w' = w
       /\ files w' = files w
       /\ selectionsReported (calls w') = selectionsReported (calls w).
Proof.
  split; [reflexivity|].
  exists w. repeat split.
Qed.

(* ================================================================== *)
(** ** More on lists, [slice], [splice] and the filter *)
(* ================================================================== *)

Section MoreArrayFacts.

Context {A : Type}.
Implicit Types l : list A.

Lemma Forall_firstn_of (P : A -> Prop) (n : nat) l :
  Forall P l -> Forall P (firstn n l).
Proof.
  intros H. rewrite <- (firstn_skipn n l) in H.
  now apply Forall_app in H.
Qed.

Lemma Forall_skipn_of (P : A -> Prop) (n : nat) l :
  Forall P l -> Forall P (skipn n l).
Proof.
  intros H. rewrite <- (firstn_skipn n l) in H.
  now apply Forall_app in H.
Qed.

Lemma Forall_slice (P : A -> Prop) l (i j : Z) :
  Forall P l -> Forall P (JsArray.slice l i j).
Proof.
  intros H. unfold JsArray.slice.
  now apply Forall_firstn_of, Forall_skipn_of.
Qed.

Lemma Forall_splice (P : A -> Prop) l (i n : Z) :
  Forall P l -> Forall P (fst (JsArray.splice l i n)).
Proof.
  intros H. unfold JsArray.splice; simpl fst.
  apply Forall_app. split;
    [now apply Forall_firstn_of | now apply Forall_skipn_of].
Qed.

Lemma length_splice_le l (i n : Z) :
  (List.length (fst (JsArray.splice l i n)) <= List.length l)%nat.
Proof.
  unfold JsArray.splice, JsArray.relativeIndex; simpl fst.
  rewrite length_app, length_firstn, length_skipn.
  destruct (i <? 0)%Z; lia.
Qed.

(** [l.slice(0, m)] with [m < 0] leaves out the last [-m] elements. *)
Lemma slice_from_0_negative l (m : Z) :
  (m < 0)%Z ->
  JsArray.slice l 0 m
  = firstn (Z.to_nat (Z.of_nat (List.length l) + m)) l.
Proof.
  intros Hm. unfold JsArray.slice, JsArray.relativeIndex.
  destruct (Z.ltb_spec m 0) as [_ | Hge]; [|lia].
  change (0 <? 0)%Z with false. cbv iota.
  replace (Z.to_nat (Z.min 0 (Z.of_nat (List.length l)))) with 0%nat by lia.
  rewrite skipn_O. f_equal. lia.
Qed.

(** Cutting at [n], appending and cutting at [n] again is cutting the
    whole at [n]. *)
Lemma firstn_firstn_app (n : nat) l l' :
  firstn n (firstn n l ++ l') = firstn n (l ++ l').
Proof.
  rewrite !firstn_app, firstn_firstn, Nat.min_id, length_firstn.
  f_equal.
  destruct (Nat.le_gt_cases (List.length l) n) as [Hle | Hgt].
  - now rewrite Nat.min_r by assumption.
  - rewrite Nat.min_l by lia.
    replace (n - n)%nat with 0%nat by lia.
    now replace (n - List.length l)%nat with 0%nat by lia.
Qed.

End MoreArrayFacts.

Section FilterFacts.

Lemma includes_empty_pattern (s : string) :
  JsString.includes s EmptyString = true.
Proof. apply includes_iff. exists EmptyString, s. reflexivity. Qed.

Lemma accepts_nonempty (p : string) (ps : list string) (file : File) :
  accepts (p :: ps) file = isValidFile (p :: ps) file.
Proof. reflexivity. Qed.

Lemma isValidFile_exists (accepted : list string) (file : File) :
  isValidFile accepted file = true
  <-> exists p, In p accepted /\ matchesType file p = true.
Proof. unfold isValidFile, JsArray.some. apply existsb_exists. Qed.

Lemma Forall_validFiles (accepted : list string) (offered : list File) :
  Forall (fun f => accepts accepted f = true) (validFiles accepted offered).
Proof.
  rewrite validFiles_filter. apply Forall_forall.
  intros f Hin. now apply filter_In in Hin.
Qed.

Lemma updatedFiles_length (m : Z) (current valid : list File) :
  (0 <= m)%Z ->
  (Z.of_nat (List.length (updatedFiles m current valid)) <= m)%Z.
Proof.
  intros Hm. unfold updatedFiles.
  destruct (m >? 1)%Z; now apply slice_from_0_length.
Qed.

Lemma Forall_updatedFiles (P : File -> Prop) (m : Z)
      (current valid : list File) :
  Forall P current -> Forall P valid ->
  Forall P (updatedFiles m current valid).
Proof.
  intros Hc Hv. unfold updatedFiles.
  destruct (m >? 1)%Z; apply Forall_slice;
    [apply Forall_app; now split | assumption].
Qed.

Lemma updatedFiles_multi (m : Z) (current valid : list File) :
  (1 < m)%Z ->
  updatedFiles m current valid = firstn (Z.to_nat m) (current ++ valid).
Proof.
  intros Hm. unfold updatedFiles.
  destruct (Z.gtb_spec m 1) as [_ | Hle]; [|lia].
  apply slice_from_0. lia.
Qed.

End FilterFacts.

(* ================================================================== *)
(** ** What one event, and a list of events, does *)
(* ================================================================== *)

Section TraceFacts.

Variable props : FileDropZoneProps.

Lemma selectionsReported_app (cs cs' : list Call) :
  selectionsReported (cs ++ cs')
  = selectionsReported cs ++ selectionsReported cs'.
Proof.
  induction cs as [|c cs IH]; [reflexivity|].
  destruct c; simpl; now rewrite IH.
Qed.

Lemma defaultsPrevented_app (cs cs' : list Call) :
  defaultsPrevented (cs ++ cs')
  = (defaultsPrevented cs + defaultsPrevented cs')%nat.
Proof.
  induction cs as [|c cs IH]; [reflexivity|].
  destruct c; simpl; now rewrite IH.
Qed.

(** The selection an event stores, given the selection it finds. *)
Lemma dispatch_effect (e : Event) (w : World) :
  exists w',
    runsTo (dispatch props e) w w'
    /\ isDragging w' = dragStep (isDragging w) e
    /\ files w'
       = match e with
         | Drop fs | Change (Some fs) =>
             updatedFiles (maxFiles props) (files w)
               (validFiles (acceptedFileTypes props) fs)
         | ClickRemove i => fst (JsArray.splice (files w) i 1)
         | _ => files w
         end
    /\ selectionsReported (calls w')
       = selectionsReported (calls w)
           ++ (if reports e then [files w'] else [])
    /\ defaultsPrevented (calls w')
       = (defaultsPrevented (calls w)
          + (if preventsDefault e then 1 else 0))%nat.
Proof.
  destruct e as [| |fs|[fs|]| |i].
  - eexists. split; [reflexivity|]. cbn.
    rewrite defaultsPrevented_app, app_nil_r, selectionsReported_app.
    cbn. rewrite app_nil_r. repeat split.
  - eexists. split; [reflexivity|]. cbn.
    rewrite app_nil_r, Nat.add_0_r. repeat split.
  - eexists. split.
    + unfold runsTo. cbn [dispatch]. rewrite handleDrop_run.
      apply handleFileChange_Some.
    + cbn. rewrite !defaultsPrevented_app, !selectionsReported_app.
      cbn. rewrite app_nil_r, Nat.add_0_r. repeat split.
  - eexists. split; [unfold runsTo; apply handleFileChange_Some|].
    cbn. rewrite defaultsPrevented_app, selectionsReported_app.
    cbn. rewrite Nat.add_0_r. repeat split.
  - exists w. split; [reflexivity|]. cbn.
    rewrite app_nil_r, Nat.add_0_r. repeat split.
  - unfold runsTo, dispatch, openFileDialog.
    destruct (fileInputRef w); eexists; (split; [reflexivity|]); cbn;
      rewrite ?defaultsPrevented_app, ?selectionsReported_app; cbn;
      rewrite ?app_nil_r, ?Nat.add_0_r; repeat split.
  - eexists. split; [unfold runsTo; apply removeFile_run|].
    cbn. rewrite defaultsPrevented_app, selectionsReported_app.
    cbn. rewrite Nat.add_0_r. repeat split.
Qed.

Lemma runEvents_nil (w : World) : runsTo (runEvents props []) w w.
Proof. reflexivity. Qed.

Lemma runEvents_cons (e : Event) (es : list Event) (w w1 w' : World) :
  runsTo (dispatch props e) w w1 ->
  runsTo (runEvents props es) w1 w' ->
  runsTo (runEvents props (e :: es)) w w'.
Proof.
  unfold runsTo. intros H1 H2. cbn [runEvents]. unfold bind.
  now rewrite H1.
Qed.

(** An invariant of every single event holds along every list of
    events, and every list of events runs to its end. *)
Lemma runEvents_invariant (I : World -> Prop) :
  (forall e w w', I w -> runsTo (dispatch props e) w w' -> I w') ->
  forall es w, I w ->
    exists w', runsTo (runEvents props es) w w' /\ I w'.
Proof.
  intros Hstep es. induction es as [|e es IH]; intros w Hw.
  - exists w. split; [apply runEvents_nil | assumption].
  - destruct (dispatch_effect e w) as (w1 & Hrun & _).
    destruct (IH w1 (Hstep e w w1 Hw Hrun)) as (w' & Hrun' & Hw').
    exists w'. split; [|assumption].
    now apply runEvents_cons with w1.
Qed.

Lemma runsTo_unique (m : M unit) (w w1 w2 : World) :
  runsTo m w w1 -> runsTo m w w2 -> w1 = w2.
Proof. unfold runsTo. intros H1 H2. congruence. Qed.

End TraceFacts.

(* ================================================================== *)
(** ** Invariants along any list of events *)
(* ================================================================== *)

(** X1. With [maxFiles >= 0], a selection within the cap stays within
    the cap along every list of events (drops, changes, removals at any
    index, drag and click events), and every such list runs to its end
    without an error. *)
Theorem runEvents_keeps_cap
  (props : FileDropZoneProps) (es : list Event) (w : World) :
  (0 <= maxFiles props)%Z ->
  (Z.of_nat (List.length (files w)) <= maxFiles props)%Z ->
  exists w',
    runsTo (runEvents props es) w w'
    /\ (Z.of_nat (List.length (files w')) <= maxFiles props)%Z.
Proof.
  intros Hmax Hw.
  apply (runEvents_invariant props
           (fun w => (Z.of_nat (List.length (files w))
                      <= maxFiles props)%Z)); [|assumption].
  clear w Hw. intros e w w' Hw Hrun.
  destruct (dispatch_effect props e w) as (w1 & Hrun1 & _ & Hfiles & _).
  rewrite (runsTo_unique _ _ _ _ Hrun Hrun1), Hfiles.
  destruct e as [| |fs|[fs|]| |i]; try assumption.
  - now apply updatedFiles_length.
  - now apply updatedFiles_length.
  - pose proof (length_splice_le (files w) i 1). lia.
Qed.

Lemma runEvents_keeps_cap_witness :
  (0 <= maxFiles demoProps)%Z
  /\ (Z.of_nat (List.length (files mounted)) <= maxFiles demoProps)%Z
  /\ exists w',
       runsTo (runEvents demoProps
                 [DragOver; Drop [a_png; b_png]; ClickRemove 0;
                  Change (Some [c_png; d_png; a_png])]) mounted w'
       /\ (Z.of_nat (List.length (files w')) <= maxFiles demoProps)%Z.
Proof.
  split; [simpl; lia | split; [simpl; lia|]].
  apply (runEvents_keeps_cap demoProps
           [DragOver; Drop [a_png; b_png]; ClickRemove 0;
            Change (Some [c_png; d_png; a_png])] mounted);
    simpl; lia.
Defined.

(** X2. If every selected file passes the filter, then so does every
    selected file after any list of events, whatever [maxFiles] is: no
    event lets a rejected file into the selection. *)
Theorem runEvents_keeps_filter
  (props : FileDropZoneProps) (es : list Event) (w : World) :
  Forall (fun f => accepts (acceptedFileTypes props) f = true) (files w) ->
  exists w',
    runsTo (runEvents props es) w w'
    /\ Forall (fun f => accepts (acceptedFileTypes props) f = true)
         (files w').
Proof.
  intros Hw.
  apply (runEvents_invariant props
           (fun w => Forall (fun f => accepts (acceptedFileTypes props) f
                                      = true) (files w))); [|assumption].
  clear w Hw. intros e w w' Hw Hrun.
  destruct (dispatch_effect props e w) as (w1 & Hrun1 & _ & Hfiles & _).
  rewrite (runsTo_unique _ _ _ _ Hrun Hrun1), Hfiles.
  destruct e as [| |fs|[fs|]| |i]; try assumption.
  - apply Forall_updatedFiles; [assumption | apply Forall_validFiles].
  - apply Forall_updatedFiles; [assumption | apply Forall_validFiles].
  - now apply Forall_splice.
Qed.

Lemma runEvents_keeps_filter_witness :
  Forall (fun f => accepts (acceptedFileTypes demoProps) f = true)
    (files mounted)
  /\ exists w',
       runsTo (runEvents demoProps
                 [Drop [txtFile "notes.txt"; a_png]; ClickRemove 3;
                  Change (Some [jpgFile "b.jpg"; txtFile "c.txt"])])
         mounted w'
       /\ Forall (fun f => accepts (acceptedFileTypes demoProps) f = true)
            (files w').
Proof.
  split; [constructor|].
  apply (runEvents_keeps_filter demoProps
           [Drop [txtFile "notes.txt"; a_png]; ClickRemove 3;
            Change (Some [jpgFile "b.jpg"; txtFile "c.txt"])] mounted).
  constructor.
Defined.

(** X3. The drag flag follows the two-state automaton along any list of
    events: it is set by a drag-over, cleared by a drag-leave and by a
    drop, and left alone by everything else, whatever the props, the
    selection and the files dropped. *)
Theorem runEvents_drag_automaton
  (props : FileDropZoneProps) (es : list Event) (w : World) :
  exists w',
    runsTo (runEvents props es) w w'
    /\ isDragging w' = dragAfter (isDragging w) es.
Proof.
  revert w. induction es as [|e es IH]; intros w.
  - exists w. split; [apply runEvents_nil | reflexivity].
  - destruct (dispatch_effect props e w) as (w1 & Hrun & Hdrag & _).
    destruct (IH w1) as (w' & Hrun' & Hdrag').
    exists w'. split; [now apply runEvents_cons with w1|].
    rewrite Hdrag', Hdrag. reflexivity.
Qed.

(** X4. The selection does not depend on the drag flag: leaving the
    drag-over and drag-leave events out of a list of events, and starting
    from any world with the same selection, ends with the same selection
    and reports the same selections to [onFilesSelected]. *)
Theorem runEvents_selection_ignores_hover
  (props : FileDropZoneProps) (es : list Event) (w1 w2 : World) :
  files w1 = files w2 ->
  exists w1' w2' reported,
    runsTo (runEvents props es) w1 w1'
    /\ runsTo (runEvents props (List.filter notHover es)) w2 w2'
    /\ files w1' = files w2'
    /\ selectionsReported (calls w1')
       = selectionsReported (calls w1) ++ reported
    /\ selectionsReported (calls w2')
       = selectionsReported (calls w2) ++ reported.
Proof.
  revert w1 w2. induction es as [|e es IH]; intros w1 w2 Hfiles.
  - exists w1, w2, []. rewrite !app_nil_r.
    repeat split; assumption.
  - destruct (dispatch_effect props e w1)
      as (v1 & Hrun1 & _ & Hf1 & Hrep1 & _).
    destruct (dispatch_effect props e w2)
      as (v2 & Hrun2 & _ & Hf2 & Hrep2 & _).
    assert (Hv : files v1 = files v2)
      by (rewrite Hf1, Hf2, Hfiles; reflexivity).
    destruct e as [| |fs|fs| |i].
    + destruct (IH v1 w2) as (w1' & w2' & r & H1 & H2 & Hf & Hr1 & Hr2).
      { rewrite Hf1. assumption. }
      exists w1', w2', r. cbn [List.filter notHover].
      repeat split; try assumption.
      * now apply runEvents_cons with v1.
      * rewrite Hr1, Hrep1. cbn. now rewrite app_nil_r.
    + destruct (IH v1 w2) as (w1' & w2' & r & H1 & H2 & Hf & Hr1 & Hr2).
      { rewrite Hf1. assumption. }
      exists w1', w2', r. cbn [List.filter notHover].
      repeat split; try assumption.
      * now apply runEvents_cons with v1.
      * rewrite Hr1, Hrep1. cbn. now rewrite app_nil_r.
    + destruct (IH v1 v2 Hv) as (w1' & w2' & r & H1 & H2 & Hf & Hr1 & Hr2).
      exists w1', w2', ([files v1] ++ r). cbn [List.filter notHover].
      repeat split; try assumption.
      * now apply runEvents_cons with v1.
      * now apply runEvents_cons with v2.
      * rewrite Hr1, Hrep1. cbn [reports]. now rewrite <- app_assoc.
      * rewrite Hr2, Hrep2, Hv. cbn [reports]. now rewrite <- app_assoc.
    + destruct (IH v1 v2 Hv) as (w1' & w2' & r & H1 & H2 & Hf & Hr1 & Hr2).
      exists w1', w2',
        ((if reports (Change fs) then [files v1] else []) ++ r).
      cbn [List.filter notHover].
      repeat split; try assumption.
      * now apply runEvents_cons with v1.
      * now apply runEvents_cons with v2.
      * rewrite Hr1, Hrep1. now rewrite <- app_assoc.
      * rewrite Hr2, Hrep2, Hv. now rewrite <- app_assoc.
    + destruct (IH v1 v2 Hv) as (w1' & w2' & r & H1 & H2 & Hf & Hr1 & Hr2).
      exists w1', w2', r. cbn [List.filter notHover].
      repeat split; try assumption.
      * now apply runEvents_cons with v1.
      * now apply runEvents_cons with v2.
      * rewrite Hr1, Hrep1. cbn. now rewrite app_nil_r.
      * rewrite Hr2, Hrep2. cbn. now rewrite app_nil_r.
    + destruct (IH v1 v2 Hv) as (w1' & w2' & r & H1 & H2 & Hf & Hr1 & Hr2).
      exists w1', w2', ([files v1] ++ r). cbn [List.filter notHover].
      repeat split; try assumption.
      * now apply runEvents_cons with v1.
      * now apply runEvents_cons with v2.
      * rewrite Hr1, Hrep1. cbn [reports]. now rewrite <- app_assoc.
      * rewrite Hr2, Hrep2, Hv. cbn [reports]. now rewrite <- app_assoc.
Qed.

Lemma runEvents_selection_ignores_hover_witness :
  files (selecting [a_png])
  = files {| files := [a_png]; isDragging := true;
             fileInputRef := None; calls := [InputClick] |}
  /\ exists w1' w2' reported,
       runsTo (runEvents demoProps [DragOver; Drop [b_png]; DragLeave])
         (selecting [a_png]) w1'
       /\ runsTo (runEvents demoProps
                    (List.filter notHover
                       [DragOver; Drop [b_png]; DragLeave]))
            {| files := [a_png]; isDragging := true;
               fileInputRef := None; calls := [InputClick] |} w2'
       /\ files w1' = files w2'
       /\ selectionsReported (calls w1')
          = selectionsReported (calls (selecting [a_png])) ++ reported
       /\ selectionsReported (calls w2')
          = selectionsReported [InputClick] ++ reported.
Proof.
  split; [reflexivity|].
  apply (runEvents_selection_ignores_hover demoProps
           [DragOver; Drop [b_png]; DragLeave] (selecting [a_png])
           {| files := [a_png]; isDragging := true;
              fileInputRef := None; calls := [InputClick] |}).
  reflexivity.
Defined.

(** X5. Along any list of events, [onFilesSelected] is called once for
    every drop, every change with a non-null file list and every removal,
    and for nothing else; [preventDefault] is called once for every
    drag-over and every drop, and for nothing else. *)
Theorem runEvents_call_counts
  (props : FileDropZoneProps) (es : list Event) (w : World) :
  exists w',
    runsTo (runEvents props es) w w'
    /\ List.length (selectionsReported (calls w'))
       = (List.length (selectionsReported (calls w))
          + List.length (List.filter reports es))%nat
    /\ defaultsPrevented (calls w')
       = (defaultsPrevented (calls w)
          + List.length (List.filter preventsDefault es))%nat.
Proof.
  revert w. induction es as [|e es IH]; intros w.
  - exists w. split; [apply runEvents_nil | cbn; lia].
  - destruct (dispatch_effect props e w) as (w1 & Hrun & _ & _ & Hrep & Hpd).
    destruct (IH w1) as (w' & Hrun' & Hrep' & Hpd').
    exists w'. split; [now apply runEvents_cons with w1|].
    rewrite Hrep', Hpd', Hrep, Hpd, length_app. cbn [List.filter].
    destruct (reports e), (preventsDefault e); cbn [List.length]; lia.
Qed.

Section Mirror.

Lemma last_cons_default {A : Type} (a d : A) (l : list A) :
  last (a :: l) d = last l a.
Proof.
  revert a d. induction l as [|b l IH]; intros a d; [reflexivity|].
  change (last (a :: b :: l) d) with (last (b :: l) d).
  now rewrite !IH.
Qed.

(** From a world whose selection is the one reported last, every list
    of events leads to such a world. *)
Lemma runEvents_last_reported
      (props : FileDropZoneProps) (es : list Event) (w : World) :
  files w = last (selectionsReported (calls w)) [] ->
  exists w',
    runsTo (runEvents props es) w w'
    /\ files w' = last (selectionsReported (calls w')) [].
Proof.
  apply (runEvents_invariant props
           (fun w => files w = last (selectionsReported (calls w)) [])).
  clear w. intros e w w' Hw Hrun.
  destruct (dispatch_effect props e w)
    as (w1 & Hrun1 & _ & Hfiles & Hrep & _).
  rewrite (runsTo_unique _ _ _ _ Hrun Hrun1), Hrep.
  destruct e as [| |fs|[fs|]| |i]; cbn [reports];
    rewrite ?last_last, ?app_nil_r; try reflexivity;
    rewrite Hfiles; exact Hw.
Qed.

Lemma FilePickerDemo_deliver (cs : list Call) (st : FilePickerDemo.State) :
  FilePickerDemo.files (FilePickerDemo.deliver cs st)
  = last (selectionsReported cs) (FilePickerDemo.files st)
  /\ FilePickerDemo.console (FilePickerDemo.deliver cs st)
     = FilePickerDemo.console st ++ selectionsReported cs.
Proof.
  unfold FilePickerDemo.deliver.
  revert st. induction (selectionsReported cs) as [|sel sels IH]; intros st.
  - cbn. now rewrite app_nil_r.
  - cbn [fold_left]. destruct (IH (FilePickerDemo.handleFilesSelected sel st))
      as [Hf Hc].
    rewrite Hf, Hc, last_cons_default. cbn. now rewrite <- app_assoc.
Qed.

Lemma App_run_files (es : list App.Event) (st : App.State) :
  App.files (App.run es st) = last (App.selections es) (App.files st).
Proof.
  unfold App.run. revert st. induction es as [|e es IH]; intros st.
  - reflexivity.
  - cbn [fold_left]. rewrite IH. destruct e as [sel | k result].
    + cbn [App.selections]. rewrite last_cons_default. f_equal.
      unfold App.step, App.handleFilesSelected.
      now destruct (_ && _).
    + cbn [App.selections]. f_equal.
      unfold App.step, App.onload.
      now destruct (nth_error (App.readers st) k).
Qed.

End Mirror.

(** X6. [FilePickerDemo] stays in step with the component: after any
    list of events on a freshly mounted component, the demo's [files]
    (set by its [handleFilesSelected] at every call of
    [onFilesSelected]) is the component's selection, and its console
    shows every reported selection in order. *)
Theorem FilePickerDemo_mirrors_selection
  (props : FileDropZoneProps) (es : list Event) :
  exists w',
    runsTo (runEvents props es) mounted w'
    /\ FilePickerDemo.files
         (FilePickerDemo.deliver (calls w') FilePickerDemo.initial)
       = files w'
    /\ FilePickerDemo.console
         (FilePickerDemo.deliver (calls w') FilePickerDemo.initial)
       = selectionsReported (calls w').
Proof.
  destruct (runEvents_last_reported props es mounted) as (w' & Hrun & Hlast);
    [reflexivity|].
  exists w'. split; [assumption|].
  destruct (FilePickerDemo_deliver (calls w') FilePickerDemo.initial)
    as [Hf Hc].
  rewrite Hf, Hc. split; [now rewrite Hlast | reflexivity].
Qed.

(** X7. [App] keeps the component's selection too, whenever its readers
    load: if [App] has received the selections the component reported, in
    order, with reader loads anywhere in between, its [files] is the
    component's selection. *)
Theorem App_mirrors_selection
  (props : FileDropZoneProps) (es : list Event) (w' : World)
  (aes : list App.Event) :
  runsTo (runEvents props es) mounted w' ->
  App.selections aes = selectionsReported (calls w') ->
  App.files (App.run aes App.initial) = files w'.
Proof.
  intros Hrun Hsel.
  destruct (runEvents_last_reported props es mounted) as (v & Hrun' & Hlast);
    [reflexivity|].
  rewrite (runsTo_unique _ _ _ _ Hrun Hrun').
  rewrite App_run_files, Hsel, (runsTo_unique _ _ _ _ Hrun Hrun').
  now rewrite Hlast.
Qed.

Lemma App_mirrors_selection_witness :
  runsTo (runEvents appProps [Drop [a_png; b_png]; ClickRemove 0]) mounted
    {| files := [b_png]; isDragging := false;
       fileInputRef := Some EmptyString;
       calls := [PreventDefault; OnFilesSelected [a_png; b_png];
                 OnFilesSelected [b_png]] |}
  /\ App.selections
       [App.FilesSelected [a_png; b_png];
        App.ReaderLoaded 0 "data:image/png;base64,AAAA";
        App.FilesSelected [b_png]]
     = selectionsReported
         [PreventDefault; OnFilesSelected [a_png; b_png];
          OnFilesSelected [b_png]]
  /\ App.files
       (App.run
          [App.FilesSelected [a_png; b_png];
           App.ReaderLoaded 0 "data:image/png;base64,AAAA";
           App.FilesSelected [b_png]] App.initial)
     = [b_png].
Proof.
  split; [reflexivity | split; [reflexivity|]].
  apply (App_mirrors_selection appProps
           [Drop [a_png; b_png]; ClickRemove 0]
           {| files := [b_png]; isDragging := false;
              fileInputRef := Some EmptyString;
              calls := [PreventDefault; OnFilesSelected [a_png; b_png];
                        OnFilesSelected [b_png]] |}
           [App.FilesSelected [a_png; b_png];
            App.ReaderLoaded 0 "data:image/png;base64,AAAA";
            App.FilesSelected [b_png]]);
    reflexivity.
Defined.

(** X8. [App]'s preview is not tied to its selection: when an image is
    selected and the selection is emptied before the image's reader has
    loaded, the later load sets the preview, so [App] ends with no file
    and a preview. *)
Theorem App_preview_outlives_selection
  (st : App.State) (file : File) (result : string) :
  JsString.startsWith (type file) "image/" = true ->
  let st' :=
    App.run [App.FilesSelected [file]; App.FilesSelected [];
             App.ReaderLoaded (List.length (App.readers st)) result] st in
  App.files st' = [] /\ App.imagePreview st' = Some result.
Proof.
  intros Himg. cbn [App.run fold_left App.step].
  unfold App.handleFilesSelected at 2. cbn [List.length Z.of_nat].
  change (0 >? 0)%Z with false. cbn [andb].
  unfold App.handleFilesSelected. rewrite Himg. cbn.
  unfold App.onload. cbn [App.readers].
  rewrite nth_error_app2 by lia. rewrite Nat.sub_diag. cbn. now split.
Qed.

Lemma App_preview_outlives_selection_witness :
  JsString.startsWith (type a_png) "image/" = true
  /\ App.files
       (App.run [App.FilesSelected [a_png]; App.FilesSelected [];
                 App.ReaderLoaded 0 "data:image/png;base64,AAAA"]
          App.initial) = []
  /\ App.imagePreview
       (App.run [App.FilesSelected [a_png]; App.FilesSelected [];
                 App.ReaderLoaded 0 "data:image/png;base64,AAAA"]
          App.initial) = Some "data:image/png;base64,AAAA"%string.
Proof.
  split; [reflexivity|].
  apply (App_preview_outlives_selection App.initial a_png
           "data:image/png;base64,AAAA").
  reflexivity.
Defined.

(* ================================================================== *)
(** ** Batches: how they add up, and the edges of [maxFiles] *)
(* ================================================================== *)

(** X9. With [maxFiles > 1], offering two batches one after the other
    stores the same selection as offering them as one batch. *)
Theorem handleFileChange_batches_add_up
  (props : FileDropZoneProps) (b1 b2 : list File) (w : World) :
  (1 < maxFiles props)%Z ->
  exists w12 w',
    runsTo (runEvents props [Change (Some b1); Change (Some b2)]) w w12
    /\ runsTo (handleFileChange props (Some (b1 ++ b2))) w w'
    /\ files w12 = files w'.
Proof.
  intros Hmax.
  destruct (dispatch_effect props (Change (Some b1)) w)
    as (w1 & Hrun1 & _ & Hf1 & _).
  destruct (dispatch_effect props (Change (Some b2)) w1)
    as (w2 & Hrun2 & _ & Hf2 & _).
  destruct (dispatch_effect props (Change (Some (b1 ++ b2))) w)
    as (w' & Hrun' & _ & Hf' & _).
  exists w2, w'. split; [|split].
  - apply runEvents_cons with w1; [assumption|].
    apply runEvents_cons with w2; [assumption | apply runEvents_nil].
  - exact Hrun'.
  - rewrite Hf2, Hf1, Hf', !updatedFiles_multi by assumption.
    rewrite !validFiles_filter, filter_app, firstn_firstn_app.
    now rewrite app_assoc.
Qed.

Lemma handleFileChange_batches_add_up_witness :
  (1 < maxFiles demoProps)%Z
  /\ exists w12 w',
       runsTo (runEvents demoProps
                 [Change (Some [b_png; txtFile "n.txt"]);
                  Change (Some [c_png; d_png])]) (selecting [a_png]) w12
       /\ runsTo (handleFileChange demoProps
                    (Some ([b_png; txtFile "n.txt"] ++ [c_png; d_png])))
            (selecting [a_png]) w'
       /\ files w12 = files w'.
Proof.
  split; [simpl; lia|].
  apply (handleFileChange_batches_add_up demoProps
           [b_png; txtFile "n.txt"] [c_png; d_png] (selecting [a_png])).
  simpl. lia.
Defined.

(** X10. With [maxFiles <= 1], a batch none of whose files passes the
    filter (an empty drop among them) empties the selection, and
    [onFilesSelected] is called with the empty selection. *)
Theorem handleFileChange_single_clears
  (props : FileDropZoneProps) (offered : list File) (w : World) :
  (maxFiles props <= 1)%Z ->
  List.filter (accepts (acceptedFileTypes props)) offered = [] ->
  exists w',
    runsTo (handleFileChange props (Some offered)) w w'
    /\ files w' = []
    /\ calls w' = calls w ++ [OnFilesSelected []].
Proof.
  intros Hmax Hnone.
  assert (Hupd : updatedFiles (maxFiles props) (files w)
                   (validFiles (acceptedFileTypes props) offered) = []).
  { unfold updatedFiles.
    destruct (Z.gtb_spec (maxFiles props) 1) as [Hgt | _]; [lia|].
    rewrite validFiles_filter, Hnone. unfold JsArray.slice.
    now rewrite skipn_nil, firstn_nil. }
  eexists. split; [unfold runsTo; apply handleFileChange_Some|].
  cbn [files calls]. rewrite Hupd. now split.
Qed.

Lemma handleFileChange_single_clears_witness :
  (maxFiles {| acceptedFileTypes := [".png"%string]; maxFiles := 1 |}
   <= 1)%Z
  /\ List.filter
       (accepts
          (acceptedFileTypes
             {| acceptedFileTypes := [".png"%string]; maxFiles := 1 |}))
       [txtFile "n.txt"] = []
  /\ exists w',
       runsTo (handleFileChange
                 {| acceptedFileTypes := [".png"%string]; maxFiles := 1 |}
                 (Some [txtFile "n.txt"])) (selecting [a_png]) w'
       /\ files w' = []
       /\ calls w' = calls (selecting [a_png]) ++ [OnFilesSelected []].
Proof.
  split; [simpl; lia | split; [reflexivity|]].
  apply (handleFileChange_single_clears
           {| acceptedFileTypes := [".png"%string]; maxFiles := 1 |}
           [txtFile "n.txt"] (selecting [a_png])).
  - simpl. lia.
  - reflexivity.
Defined.

(** X11. With [maxFiles > 1] and a selection within the cap, a batch
    changes nothing when the selection is full or when none of its files
    passes the filter; [onFilesSelected] is called all the same, with the
    selection as it was. *)
Theorem handleFileChange_multi_unchanged
  (props : FileDropZoneProps) (offered : list File) (w : World) :
  (1 < maxFiles props)%Z ->
  (Z.of_nat (List.length (files w)) <= maxFiles props)%Z ->
  Z.of_nat (List.length (files w)) = maxFiles props
  \/ List.filter (accepts (acceptedFileTypes props)) offered = [] ->
  exists w',
    runsTo (handleFileChange props (Some offered)) w w'
    /\ files w' = files w
    /\ calls w' = calls w ++ [OnFilesSelected (files w)].
Proof.
  intros Hmax Hcap Hcase.
  assert (Hupd : updatedFiles (maxFiles props) (files w)
                   (validFiles (acceptedFileTypes props) offered)
                 = files w).
  { rewrite updatedFiles_multi, validFiles_filter by assumption.
    destruct Hcase as [Hfull | Hnone].
    - rewrite firstn_app.
      replace (Z.to_nat (maxFiles props) - List.length (files w))%nat
        with 0%nat by lia.
      rewrite firstn_all2 by lia. apply app_nil_r.
    - rewrite Hnone, app_nil_r. apply firstn_all2. lia. }
  eexists. split; [unfold runsTo; apply handleFileChange_Some|].
  cbn [files calls]. rewrite Hupd. now split.
Qed.

Lemma handleFileChange_multi_unchanged_witness :
  (1 < maxFiles demoProps)%Z
  /\ (Z.of_nat (List.length (files (selecting [a_png; b_png; c_png])))
      <= maxFiles demoProps)%Z
  /\ (Z.of_nat (List.length (files (selecting [a_png; b_png; c_png])))
      = maxFiles demoProps
      \/ List.filter (accepts (acceptedFileTypes demoProps)) [d_png] = [])
  /\ exists w',
       runsTo (handleFileChange demoProps (Some [d_png]))
         (selecting [a_png; b_png; c_png]) w'
       /\ files w' = [a_png; b_png; c_png]
       /\ calls w' = [OnFilesSelected [a_png; b_png; c_png]].
Proof.
  split; [simpl; lia | split; [simpl; lia | split; [left; reflexivity|]]].
  apply (handleFileChange_multi_unchanged demoProps [d_png]
           (selecting [a_png; b_png; c_png])).
  - simpl. lia.
  - simpl. lia.
  - left. reflexivity.
Defined.

(** X12. [maxFiles] below one is not refused. With [maxFiles = 0] every
    batch empties the selection; with [maxFiles < 0] the selection
    becomes the accepted files of the batch without their last
    [-maxFiles], however many that leaves. The previous selection is
    dropped in both cases. *)
Theorem handleFileChange_maxFiles_below_one
  (props : FileDropZoneProps) (offered : list File) (w : World) :
  (maxFiles props <= 0)%Z ->
  let accepted := List.filter (accepts (acceptedFileTypes props)) offered in
  exists w',
    runsTo (handleFileChange props (Some offered)) w w'
    /\ (maxFiles props = 0%Z -> files w' = [])
    /\ ((maxFiles props < 0)%Z ->
        files w'
        = firstn (Z.to_nat (Z.of_nat (List.length accepted)
                            + maxFiles props)) accepted).
Proof.
  intros Hmax accepted.
  eexists. split; [unfold runsTo; apply handleFileChange_Some|].
  cbn [files]. unfold updatedFiles.
  destruct (Z.gtb_spec (maxFiles props) 1) as [Hgt | _]; [lia|].
  rewrite validFiles_filter. fold accepted. split.
  - intros ->. now rewrite slice_from_0 by lia.
  - intros Hneg. now apply slice_from_0_negative.
Qed.

Lemma handleFileChange_maxFiles_below_one_witness :
  (maxFiles {| acceptedFileTypes := []; maxFiles := -1 |} <= 0)%Z
  /\ exists w',
       runsTo (handleFileChange
                 {| acceptedFileTypes := []; maxFiles := -1 |}
                 (Some [b_png; c_png; d_png])) (selecting [a_png]) w'
       /\ (maxFiles {| acceptedFileTypes := []; maxFiles := -1 |} = 0%Z ->
           files w' = [])
       /\ ((maxFiles {| acceptedFileTypes := []; maxFiles := -1 |} < 0)%Z ->
           files w' = [b_png; c_png]).
Proof.
  split; [simpl; lia|].
  apply (handleFileChange_maxFiles_below_one
           {| acceptedFileTypes := []; maxFiles := -1 |}
           [b_png; c_png; d_png] (selecting [a_png])).
  simpl. lia.
Defined.

(** X13. A file that passes the filter and is offered when there is room
    is put last, and removing at that position gives back the selection
    as it was. *)
Theorem add_then_remove_restores
  (props : FileDropZoneProps) (file : File) (w : World) :
  (1 < maxFiles props)%Z ->
  (Z.of_nat (List.length (files w)) < maxFiles props)%Z ->
  accepts (acceptedFileTypes props) file = true ->
  exists w1 w',
    runsTo (handleFileChange props (Some [file])) w w1
    /\ files w1 = files w ++ [file]
    /\ runsTo (removeFile (Z.of_nat (List.length (files w)))) w1 w'
    /\ files w' = files w.
Proof.
  intros Hmax Hroom Hacc.
  destruct (dispatch_effect props (Change (Some [file])) w)
    as (w1 & Hrun1 & _ & Hf1 & _).
  assert (Hadd : files w1 = files w ++ [file]).
  { rewrite Hf1, updatedFiles_multi, validFiles_filter by assumption.
    cbn [List.filter]. rewrite Hacc. apply firstn_all2.
    rewrite length_app. cbn [List.length]. lia. }
  destruct (dispatch_effect props
              (ClickRemove (Z.of_nat (List.length (files w)))) w1)
    as (w' & Hrun' & _ & Hf' & _).
  exists w1, w'. repeat split; try assumption.
  rewrite Hf', Hadd, splice_inside
    by (rewrite length_app; cbn [List.length]; lia).
  rewrite Nat2Z.id, firstn_app, Nat.sub_diag, firstn_all.
  cbn [firstn]. rewrite app_nil_r, skipn_all2
    by (rewrite length_app; cbn [List.length]; lia).
  apply app_nil_r.
Qed.

Lemma add_then_remove_restores_witness :
  (1 < maxFiles demoProps)%Z
  /\ (Z.of_nat (List.length (files (selecting [a_png; b_png])))
      < maxFiles demoProps)%Z
  /\ accepts (acceptedFileTypes demoProps) c_png = true
  /\ exists w1 w',
       runsTo (handleFileChange demoProps (Some [c_png]))
         (selecting [a_png; b_png]) w1
       /\ files w1 = [a_png; b_png] ++ [c_png]
       /\ runsTo (removeFile 2) w1 w'
       /\ files w' = [a_png; b_png].
Proof.
  split; [simpl; lia | split; [simpl; lia | split; [reflexivity|]]].
  apply (add_then_remove_restores demoProps c_png
           (selecting [a_png; b_png])).
  - simpl. lia.
  - simpl. lia.
  - reflexivity.
Defined.

(** X14. Re-offering a file that is already selected, when it passes the
    filter and there is room, selects it a second time: the component
    does not remove duplicates. *)
Theorem handleFileChange_keeps_duplicates
  (props : FileDropZoneProps) (file : File) (w : World) :
  (1 < maxFiles props)%Z ->
  (Z.of_nat (List.length (files w)) < maxFiles props)%Z ->
  accepts (acceptedFileTypes props) file = true ->
  In file (files w) ->
  exists w',
    runsTo (handleFileChange props (Some [file])) w w'
    /\ files w' = files w ++ [file]
    /\ ~ NoDup (files w').
Proof.
  intros Hmax Hroom Hacc Hin.
  destruct (dispatch_effect props (Change (Some [file])) w)
    as (w' & Hrun & _ & Hf & _).
  assert (Hadd : files w' = files w ++ [file]).
  { rewrite Hf, updatedFiles_multi, validFiles_filter by assumption.
    cbn [List.filter]. rewrite Hacc. apply firstn_all2.
    rewrite length_app. cbn [List.length]. lia. }
  exists w'. repeat split; try assumption.
  rewrite Hadd. intros Hnd. apply NoDup_remove_2 in Hnd.
  apply Hnd. now rewrite app_nil_r.
Qed.

Lemma handleFileChange_keeps_duplicates_witness :
  (1 < maxFiles demoProps)%Z
  /\ (Z.of_nat (List.length (files (selecting [a_png]))) < maxFiles demoProps)%Z
  /\ accepts (acceptedFileTypes demoProps) a_png = true
  /\ In a_png (files (selecting [a_png]))
  /\ exists w',
       runsTo (handleFileChange demoProps (Some [a_png]))
         (selecting [a_png]) w'
       /\ files w' = [a_png] ++ [a_png]
       /\ ~ NoDup (files w').
Proof.
  split; [simpl; lia | split; [simpl; lia | split; [reflexivity|]]].
  split; [left; reflexivity|].
  apply (handleFileChange_keeps_duplicates demoProps a_png
           (selecting [a_png])).
  - simpl. lia.
  - simpl. lia.
  - reflexivity.
  - left. reflexivity.
Defined.

(* ================================================================== *)
(** ** The filter as a set of patterns *)
(* ================================================================== *)

(** X15. A filter that holds the pattern made of one asterisk, or the
    empty pattern, lets every offered file through. *)
Theorem validFiles_wildcard
  (accepted : list string) (offered : list File) :
  In "*"%string accepted \/ In EmptyString accepted ->
  validFiles accepted offered = offered.
Proof.
  intros Hin. rewrite validFiles_filter.
  rewrite (filter_ext (accepts accepted) (fun _ => true));
    [apply filter_all|].
  intros file.
  destruct accepted as [|p ps]; [reflexivity|].
  rewrite accepts_nonempty. apply isValidFile_exists.
  destruct Hin as [Hin | Hin].
  - exists "*"%string. split; [assumption|].
    unfold matchesType.
    change (JsString.replace "*" "*" EmptyString) with EmptyString.
    now rewrite includes_empty_pattern.
  - exists EmptyString. split; [assumption|].
    unfold matchesType.
    change (JsString.replace EmptyString "*" EmptyString) with EmptyString.
    now rewrite includes_empty_pattern.
Qed.

Lemma validFiles_wildcard_witness :
  (In "*"%string [".png"; "*"]%string
   \/ In EmptyString [".png"; "*"]%string)
  /\ validFiles [".png"; "*"]%string [txtFile "n.txt"; a_png]
     = [txtFile "n.txt"; a_png].
Proof.
  split.
  - left. right. left. reflexivity.
  - apply (validFiles_wildcard [".png"; "*"]%string
             [txtFile "n.txt"; a_png]).
    left. right. left. reflexivity.
Defined.

(** X16. The accepted files depend on the patterns of the filter as a
    set: two filters with the same patterns, in any order and with any
    repetitions, accept the same files of every batch. *)
Theorem validFiles_same_patterns
  (accepted accepted' : list string) (offered : list File) :
  (forall p, In p accepted <-> In p accepted') ->
  validFiles accepted offered = validFiles accepted' offered.
Proof.
  intros Hsame. rewrite !validFiles_filter. apply filter_ext.
  intros file.
  destruct accepted as [|p ps], accepted' as [|p' ps'].
  - reflexivity.
  - exfalso. apply (Hsame p'). now left.
  - exfalso. apply (Hsame p). now left.
  - rewrite !accepts_nonempty.
    destruct (isValidFile (p :: ps) file) eqn:E1,
             (isValidFile (p' :: ps') file) eqn:E2; try reflexivity.
    + apply isValidFile_exists in E1 as (q & Hq & Hm).
      apply Hsame in Hq.
      assert (E : isValidFile (p' :: ps') file = true)
        by (apply isValidFile_exists; eauto).
      congruence.
    + apply isValidFile_exists in E2 as (q & Hq & Hm).
      apply Hsame in Hq.
      assert (E : isValidFile (p :: ps) file = true)
        by (apply isValidFile_exists; eauto).
      congruence.
Qed.

Lemma validFiles_same_patterns_witness :
  (forall p, In p [".png"; ".jpg"]%string
             <-> In p [".jpg"; ".png"; ".jpg"]%string)
  /\ validFiles [".png"; ".jpg"]%string [a_png; txtFile "n.txt"]
     = validFiles [".jpg"; ".png"; ".jpg"]%string [a_png; txtFile "n.txt"].
Proof.
  assert (H : forall p, In p [".png"; ".jpg"]%string
                        <-> In p [".jpg"; ".png"; ".jpg"]%string)
    by (intros p; simpl; tauto).
  split; [exact H|].
  apply (validFiles_same_patterns [".png"; ".jpg"]%string
           [".jpg"; ".png"; ".jpg"]%string [a_png; txtFile "n.txt"] H).
Defined.

(** X17. Adding patterns to a filter that is not empty never rejects a
    file that was accepted: every file kept from a batch under the
    smaller filter is kept under the larger one. *)
Theorem validFiles_more_patterns
  (accepted accepted' : list string) (offered : list File) (file : File) :
  accepted <> [] ->
  incl accepted accepted' ->
  In file (validFiles accepted offered) ->
  In file (validFiles accepted' offered).
Proof.
  intros Hne Hincl. rewrite !validFiles_filter, !filter_In.
  intros [Hin Hacc]. split; [assumption|].
  destruct accepted as [|p ps]; [contradiction|].
  destruct accepted' as [|p' ps']; [destruct (Hincl p); now left|].
  rewrite accepts_nonempty in *.
  apply isValidFile_exists in Hacc as (q & Hq & Hm).
  apply isValidFile_exists. exists q. split; [now apply Hincl | assumption].
Qed.

Lemma validFiles_more_patterns_witness :
  [".png"%string] <> []
  /\ incl [".png"%string] [".pdf"; ".png"]%string
  /\ In a_png (validFiles [".png"%string] [txtFile "n.txt"; a_png])
  /\ In a_png (validFiles [".pdf"; ".png"]%string [txtFile "n.txt"; a_png]).
Proof.
  assert (Hne : [".png"%string] <> []) by discriminate.
  assert (Hincl : incl [".png"%string] [".pdf"; ".png"]%string)
    by (intros p [<- | []]; right; left; reflexivity).
  assert (Hin : In a_png (validFiles [".png"%string]
                            [txtFile "n.txt"; a_png]))
    by (left; reflexivity).
  split; [exact Hne | split; [exact Hincl | split; [exact Hin|]]].
  apply (validFiles_more_patterns [".png"%string] [".pdf"; ".png"]%string
           [txtFile "n.txt"; a_png] a_png Hne Hincl Hin).
Defined.
